(** * GradingKaisiHai: the professor grade lookup, embedded and verified

    Shallow embedding of [unified_professor_grades.py] (and of the part
    of [testing.py] that differs from it):

    - [Poller]     : [wait_for_table_stabilize], the shape-polling loop;
    - [Reconcile]  : the merge / pivot / reindex / weighted-average
                     computation of [main];
    - [Testing]    : the pivot that [testing.py] prints;
    - [Browser]    : [get_professor_courses], the scoped browser session
                     and the course extractor, in a small state/exception
                     monad;
    - [Program]    : the interactive loop of [main].

    The pandas calls are modelled by what they compute on these frames:
    a left [merge], [pivot_table] with its default [dropna=True],
    [reindex] with a fill value.

    Numbers: counts are integers ([Z]); the clock and the averages are
    exact rationals ([Q]) standing for Python floats. *)

From Stdlib Require Import ZArith QArith Qround Qabs Lqa Lia List Sorted String Ascii Bool.
Import ListNotations.
Local Open Scope string_scope.
Local Open Scope Z_scope.

(** ** Tables as [pd.read_html] returns them *)

(** A table is its rows, header row first; every cell is text. *)
Definition Table := list (list string).

(** [driver.page_source] parsed by [pd.read_html(...)[0]]: [None] when the
    page holds no table (pandas raises [ValueError]). *)
Definition Page := option Table.

Definition Shape := (nat * nat)%type.

Definition shape_eqb (a b : Shape) : bool :=
  (Nat.eqb (fst a) (fst b) && Nat.eqb (snd a) (snd b))%bool.

Definition ncols (t : Table) : nat :=
  match t with
  | [] => 0%nat
  | r :: _ => List.length r
  end.

(** [DataFrame.shape] *)
Definition shape (t : Table) : Shape := (List.length t, ncols t).

(** [DataFrame.empty]: some axis has length 0. *)
Definition df_empty (t : Table) : bool :=
  (Nat.eqb (List.length t) 0 || Nat.eqb (ncols t) 0)%bool.

Module Poller.

(** Lines 62-71: the frame whose shape is compared.  No table gives the
    empty [pd.DataFrame()], of shape (0, 0); a non-empty table loses its
    header row. *)
Definition current_shape (p : Page) : Shape :=
  match p with
  | None => (0%nat, 0%nat)
  | Some t => if df_empty t then shape t else shape (tl t)
  end.

(** The loop variables [last_df] (only its shape is ever read) and
    [stable_secs]. *)
Record PollState := mkPoll { last_df : option Shape; stable_secs : Z }.

Definition start : PollState := mkPoll None 0.

(** Lines 73-79. *)
Definition observe (st : PollState) (cur : Shape) : PollState :=
  mkPoll (Some cur)
         (match last_df st with
          | Some last => if shape_eqb cur last then stable_secs st + 1 else 0
          | None => stable_secs st
          end).

Inductive Exit := Stable | TimedOut.

(** [Stopped n why]: the loop left through a [break] after reading [n]
    samples.  [Pending st]: the recorded observations ran out while the
    loop was still going round. *)
Inductive PollResult :=
| Stopped (samples : nat) (why : Exit)
| Pending (st : PollState).

(** One observation per turn of the loop: the page read at line 62 and
    the value of [time.time() - start_time] at line 86. *)
Definition Feed := list (Page * Q).

(** Lines 60-89, [taken] counting the samples read so far. *)
Fixpoint poll_loop (max_wait : Q) (stable_duration : Z)
         (st : PollState) (taken : nat) (feed : Feed) : PollResult :=
  match feed with
  | [] => Pending st
  | (page, elapsed) :: rest =>
      let st' := observe st (current_shape page) in
      if stable_duration <=? stable_secs st' then Stopped (S taken) Stable
      else if negb (Qle_bool elapsed max_wait) then Stopped (S taken) TimedOut
      else poll_loop max_wait stable_duration st' (S taken) rest
  end.

Definition wait_for_table_stabilize (max_wait : Q) (stable_duration : Z)
           (feed : Feed) : PollResult :=
  poll_loop max_wait stable_duration start 0 feed.

(** The counter after [n] more observations, read off the samples
    alone. *)
Definition counter_from (st : PollState) (feed : Feed) (n : nat) : Z :=
  stable_secs
    (fold_left observe (map (fun o => current_shape (fst o)) (firstn n feed))
               st).

Definition counter_after (feed : Feed) (n : nat) : Z :=
  counter_from start feed n.

(** The clock reading of the [n]-th observation (from 1). *)
Definition elapsed_at (feed : Feed) (n : nat) : Q :=
  snd (nth (pred n) feed (None, 0%Q)).


(** A table of [r] data rows and [c] columns under a header row. *)
Definition blank_table (r c : nat) : Table :=
  repeat (repeat "" c) (S r).

(** Samples taken at one-second ticks: the [i]-th page is read [i]
    seconds after the start. *)
Fixpoint ticks_from (i : Z) (pages : list Page) : Feed :=
  match pages with
  | [] => []
  | p :: ps => (p, inject_Z i) :: ticks_from (i + 1) ps
  end.



End Poller.

(** ** Text helpers *)

(** Text is read one character per [ascii], code points below 256.
    [str.isspace] there: TAB..CR, FS..US, the blank, NEL and the
    no-break space. *)
Definition is_space (a : ascii) : bool :=
  let n := nat_of_ascii a in
  ((Nat.leb 9 n && Nat.leb n 13) || (Nat.leb 28 n && Nat.leb n 31)
   || Nat.eqb n 32 || Nat.eqb n 133 || Nat.eqb n 160)%bool.

Fixpoint lstrip (s : string) : string :=
  match s with
  | EmptyString => EmptyString
  | String a r => if is_space a then lstrip r else s
  end.

Fixpoint rstrip (s : string) : string :=
  match s with
  | EmptyString => EmptyString
  | String a r =>
      match rstrip r with
      | EmptyString => if is_space a then EmptyString else String a EmptyString
      | r' => String a r'
      end
  end.

(** [str.strip()] *)
Definition strip (s : string) : string := rstrip (lstrip s).

(** Sorting with duplicates merged, as [groupby(..., sort=True)] orders
    its group keys. *)
Fixpoint insert_unique {A : Type} (cmp : A -> A -> comparison)
         (x : A) (l : list A) : list A :=
  match l with
  | [] => [x]
  | y :: t =>
      match cmp x y with
      | Lt => x :: l
      | Eq => l
      | Gt => y :: insert_unique cmp x t
      end
  end.

Definition sort_unique {A : Type} (cmp : A -> A -> comparison)
           (l : list A) : list A :=
  fold_right (insert_unique cmp) [] l.

Definition Zsum (l : list Z) : Z := fold_right Z.add 0 l.

Module Reconcile.

Definition ALLOWED_GRADES : list string :=
  ["A*"; "A"; "B+"; "B"; "C+"; "C"; "D+"; "D"; "E"; "F"; "S"; "X"].

(** A row of [courses_df]. *)
Record CourseRecord := mkCourse
  { Year : string; Semester : Z; Course : string }.

(** A row of [grades_df], the sheet [grades.xlsx]. *)
Record GradeRecord := mkGrade
  { gYear : string; gSemester : Z; gCourse : string;
    Grade : string; Count : Z }.

(** The join key (Year, Semester, Course). *)
Definition Key := (string * Z * string)%type.

Definition key_eqb (a b : Key) : bool :=
  let '(y1, s1, c1) := a in
  let '(y2, s2, c2) := b in
  ((y1 =? y2)%string && (s1 =? s2) && (c1 =? c2)%string)%bool.

(** Tuples compare field by field; text compares by code point. *)
Definition key_compare (a b : Key) : comparison :=
  let '(y1, s1, c1) := a in
  let '(y2, s2, c2) := b in
  match String.compare y1 y2 with
  | Eq => match Z.compare s1 s2 with
          | Eq => String.compare c1 c2
          | o => o
          end
  | o => o
  end.

(** Lines 193-197: [astype(str).str.strip()] on Year and Course;
    [astype(int)] leaves an integer Semester as it is. *)
Definition normalize_course (c : CourseRecord) : CourseRecord :=
  mkCourse (strip (Year c)) (Semester c) (strip (Course c)).

Definition normalize_grade (g : GradeRecord) : GradeRecord :=
  mkGrade (strip (gYear g)) (gSemester g) (strip (gCourse g))
          (Grade g) (Count g).

Definition course_key (c : CourseRecord) : Key :=
  (Year c, Semester c, Course c).

Definition grade_key (g : GradeRecord) : Key :=
  (gYear g, gSemester g, gCourse g).

(** A row of [merged]: the key columns, then Grade and Count, which are
    NaN together ([None]) where no grade row matched. *)
Definition MergedRow := (Key * option (string * Z))%type.

(** Lines 199-203: [pd.merge(..., how='left')].  Left rows keep their
    order; each is paired with its matches in the right frame's order,
    or once with NaN when there is none. *)
Definition merge (courses : list CourseRecord) (grades : list GradeRecord)
  : list MergedRow :=
  flat_map
    (fun c =>
       match filter (fun g => key_eqb (course_key c) (grade_key g)) grades with
       | [] => [(course_key c, None)]
       | ms => map (fun g => (course_key c, Some (Grade g, Count g))) ms
       end)
    courses.

(** [pivot_table] groups on Year, Semester, Course and Grade with
    pandas' default [dropna=True]: a row whose Grade is NaN belongs to no
    group. *)
Definition graded (merged : list MergedRow) : list (Key * string * Z) :=
  flat_map
    (fun r =>
       match snd r with
       | Some (g, n) => [(fst r, g, n)]
       | None => []
       end)
    merged.

(** [aggfunc='sum'] over the group (key, grade); a pair without a group
    is filled with [fill_value=0], which is also the empty sum. *)
Definition cell_sum (rows : list (Key * string * Z)) (k : Key) (g : string)
  : Z :=
  Zsum (map snd
            (filter (fun r => (key_eqb (fst (fst r)) k
                               && (snd (fst r) =? g)%string)%bool)
                    rows)).

(** A pivoted row: its index key and one labelled cell per column. *)
Definition PivotRow := (Key * list (string * Z))%type.

(** Lines 205-211: one row per group key and one column per grade that
    occurs, both in sorted order. *)
Definition pivot_table (merged : list MergedRow) : list PivotRow :=
  let rows := graded merged in
  let labels := sort_unique String.compare (map (fun r => snd (fst r)) rows) in
  map (fun k => (k, map (fun g => (g, cell_sum rows k g)) labels))
      (sort_unique key_compare (map (fun r => fst (fst r)) rows)).

Definition lookup (cells : list (string * Z)) (g : string) : option Z :=
  option_map snd (find (fun c => (fst c =? g)%string) cells).

(** Lines 213-215: [reindex(columns=..., fill_value=0)]. *)
Definition reindex (labels : list string) (p : list PivotRow)
  : list PivotRow :=
  map (fun r =>
         (fst r,
          map (fun g => (g, match lookup (snd r) g with
                            | Some n => n
                            | None => 0
                            end))
              labels))
      p.

(** Lines 218-221. *)
Definition grade_points : list (string * Z) :=
  [("A*", 10); ("A", 10); ("B+", 9); ("B", 8); ("C+", 7);
   ("C", 6); ("D+", 5); ("D", 4); ("E", 0); ("F", 0)].

(** [pivot[grade]] at one row.  After the reindex every label read below
    is a column, so the [KeyError] branch is never taken; it reads 0. *)
Definition column (cells : list (string * Z)) (g : string) : Z :=
  match lookup cells g with
  | Some n => n
  | None => 0
  end.

(** Lines 224-228, row by row. *)
Definition weighted_sum (cells : list (string * Z)) : Z :=
  fold_left (fun acc gp => acc + column cells (fst gp) * snd gp)
            grade_points 0.

Definition total_counts (cells : list (string * Z)) : Z :=
  fold_left (fun acc gp => acc + column cells (fst gp)) grade_points 0.

(** [np.rint]: to the nearest integer, ties to the even one. *)
Definition rint (x : Q) : Z :=
  let f := Qfloor x in
  match Qcompare (x - inject_Z f) (1 # 2) with
  | Lt => f
  | Gt => f + 1
  | Eq => if Z.even f then f else f + 1
  end.

(** Line 240: [.round(2)], i.e. [rint(x * 100) / 100]. *)
Definition round2 (x : Q) : Q := Qmake (rint (x * 100)) 100.

(** Lines 233-240; [None] is NaN. *)
Definition average (cells : list (string * Z)) : option Q :=
  if 0 <? total_counts cells
  then Some (round2 (inject_Z (weighted_sum cells)
                     / inject_Z (total_counts cells)))
  else None.

(** A row of the final [pivot] frame. *)
Record ReconciledRow := mkRow
  { key : Key; counts : list (string * Z); Total : Z; Avg : option Q }.

(** Lines 231-245 for one row. *)
Definition finish (r : PivotRow) : ReconciledRow :=
  mkRow (fst r) (snd r)
        (Zsum (map (column (snd r)) ALLOWED_GRADES))
        (average (snd r)).

(** Lines 191-245 of [main]. *)
Definition reconcile (courses_df : list CourseRecord)
           (grades_df : list GradeRecord) : list ReconciledRow :=
  let grades_df :=
    filter (fun g => existsb (String.eqb (Grade g)) ALLOWED_GRADES) grades_df in
  let courses_df := map normalize_course courses_df in
  let grades_df := map normalize_grade grades_df in
  let merged := merge courses_df grades_df in
  let pivot := pivot_table merged in
  let pivot := reindex ALLOWED_GRADES pivot in
  map finish pivot.

(** The graded rows that reach the pivot of [reconcile]. *)
Definition pivot_input (courses_df : list CourseRecord)
           (grades_df : list GradeRecord) : list (Key * string * Z) :=
  graded
    (merge (map normalize_course courses_df)
           (map normalize_grade
                (filter (fun g => existsb (String.eqb (Grade g)) ALLOWED_GRADES)
                        grades_df))).

(** The scenario of the specification. *)
Definition cs101 : CourseRecord := mkCourse "2023-24" 1 "CS101".

Definition cs101_grades : list GradeRecord :=
  [mkGrade "2023-24" 1 "CS101" "A" 10;
   mkGrade "2023-24" 1 "CS101" "B" 5;
   mkGrade "2023-24" 1 "CS101" "S" 2].


(** A second course, absent from the grade sheet. *)
Definition ma102 : CourseRecord := mkCourse "2023-24" 2 "MA102".

End Reconcile.

(** [testing.py] is an earlier version of the same program.  Its
    [wait_for_table_stabilize] and [get_professor_courses] are those
    modelled here; its [main] stops at the pivot, which it prints as it
    is: grade codes are not filtered, and there is no reindex, no Total
    and no average. *)
Module Testing.
Import Reconcile.

Definition ALLOWED_GRADES : list string :=
  ["A*"; "A"; "B+"; "B"; "C+"; "C"; "D+"; "D"; "F"; "S"; "X"].

(** Lines 148-171 of [testing.py]. *)
Definition report (courses_df : list CourseRecord)
           (grades_df : list GradeRecord) : list PivotRow :=
  pivot_table (merge (map normalize_course courses_df)
                     (map normalize_grade grades_df)).

End Testing.

(** ** Effects: live browser sessions, standard output, exceptions *)

Inductive exn :=
| WebDriverException
| TimeoutException
| NoSuchElementException
| ValueError
| IndexError
| KeyError
| AttributeError
| FileNotFoundError
| EOFError.

(** What the program shows: lines of text, the printed table and the
    chart drawn from it. *)
Inductive Output :=
| Line (text : string)
| Report (pivot : list Reconcile.ReconciledRow)
| Chart (pivot : list Reconcile.ReconciledRow).

Record World := mkWorld
  { live : nat;              (* browser sessions opened and not yet quit *)
    stdout : list Output }.  (* oldest first *)

(** A computation returns, raises, or is still running when the recorded
    observations of the page run out ([Stall]). *)
Inductive Outcome (A : Type) :=
| Val (a : A)
| Raise (e : exn)
| Stall.
Arguments Val {A} a.
Arguments Raise {A} e.
Arguments Stall {A}.

Definition M (A : Type) : Type := World -> World * Outcome A.

Definition ret {A : Type} (a : A) : M A := fun w => (w, Val a).

Definition bind {A B : Type} (m : M A) (k : A -> M B) : M B :=
  fun w =>
    match m w with
    | (w1, Val a) => k a w1
    | (w1, Raise e) => (w1, Raise e)
    | (w1, Stall) => (w1, Stall)
    end.

Notation "x <- m ;; k" := (bind m (fun x => k))
  (at level 61, m at next level, right associativity).
Notation "m ;;; k" := (bind m (fun _ => k))
  (at level 61, right associativity).

Definition raise {A : Type} (e : exn) : M A := fun w => (w, Raise e).

Definition stall {A : Type} : M A := fun w => (w, Stall).

(** A call that either goes through or raises. *)
Definition attempt (r : option exn) : M unit :=
  match r with
  | None => ret tt
  | Some e => raise e
  end.

Definition lift {A : Type} (r : exn + A) : M A :=
  match r with
  | inl e => raise e
  | inr a => ret a
  end.

(** The world after one more piece of output. *)
Definition said (w : World) (o : Output) : World :=
  mkWorld (live w) (stdout w ++ [o]).

Definition emit (o : Output) : M unit := fun w => (said w o, Val tt).

Definition print (text : string) : M unit := emit (Line text).

(** [try: body finally: cleanup].  The clean-up runs when the body returns
    and when it raises; a body that never leaves does not reach it. *)
Definition try_finally {A : Type} (body : M A) (cleanup : M unit) : M A :=
  fun w =>
    match body w with
    | (w1, Stall) => (w1, Stall)
    | (w1, r) =>
        match cleanup w1 with
        | (w2, Val _) => (w2, r)
        | (w2, Raise e) => (w2, Raise e)
        | (w2, Stall) => (w2, Stall)
        end
    end.

Definition nl : string := String (ascii_of_nat 10) EmptyString.

Module Browser.

(** What the intranet site does during one query. *)
Record BrowserEnv := mkEnv
  { launch : option exn;     (* lines 97-100: [webdriver.Chrome(...)] *)
    navigate : option exn;   (* lines 102-117: the first exception of
                                [get], [until], [find_element],
                                [send_keys] or [click], if any *)
    samples : Poller.Feed;   (* what the stabilisation loop observes *)
    final_page : Page }.     (* [driver.page_source] at line 124 *)

(** The frame returned to [main]: column labels and rows of cells. *)
Record DataFrame := mkFrame
  { columns : list string; rows : list (list string) }.

Definition open_session (env : BrowserEnv) : M unit :=
  fun w =>
    match launch env with
    | Some e => (w, Raise e)
    | None => (mkWorld (S (live w)) (stdout w), Val tt)
    end.

(** [driver.quit()] *)
Definition quit : M unit :=
  fun w => (mkWorld (pred (live w)) (stdout w), Val tt).

(** Line 120, with the arguments passed there. *)
Definition stabilize (feed : Poller.Feed) : M unit :=
  match Poller.wait_for_table_stabilize 60 6 feed with
  | Poller.Stopped _ _ => ret tt
  | Poller.Pending _ => stall
  end.

(** Lines 128-131: the [rename] mapping. *)
Definition rename_column (h : string) : string :=
  if (h =? "ACADEMIC YEAR")%string then "Year"
  else if (h =? "SEM")%string then "Semester"
  else if (h =? "COURSE NAME")%string then "Course"
  else h.

Definition wanted : list string := ["Year"; "Semester"; "Course"].

(** The positions of the columns labelled [name]. *)
Definition positions (name : string) (labels : list string) : list nat :=
  map fst
      (filter (fun p => (snd p =? name)%string)
              (combine (seq 0 (List.length labels)) labels)).

(** [df[['Year', 'Semester', 'Course']]] on one row: for each wanted
    label in turn, the cells of every column that carries it. *)
Definition select {A : Type} (labels : list string) (row : list A) (d : A)
  : list A :=
  flat_map (fun n => map (fun i => nth i row d) (positions n labels)) wanted.

(** Lines 124-133. *)
Definition extract (p : Page) : exn + DataFrame :=
  match p with
  | None => inl ValueError              (* read_html: no tables found *)
  | Some [] => inl IndexError           (* raw.iloc[0] *)
  | Some (header :: body) =>
      let labels := map rename_column header in
      if forallb (fun n => existsb (String.eqb n) labels) wanted
      then inr (mkFrame (select labels labels "")
                        (map (fun r => select labels r "") body))
      else inl KeyError                 (* a wanted label is no column *)
  end.

(** Lines 92-135. *)
Definition get_professor_courses (env : BrowserEnv) (prof_name : string)
  : M DataFrame :=
  open_session env ;;;
  try_finally
    (attempt (navigate env) ;;;
     stabilize (samples env) ;;;
     print (nl ++ "Please wait...") ;;;
     lift (extract (final_page env)))
    quit.

(** [DataFrame.empty] *)
Definition frame_empty (df : DataFrame) : bool :=
  match rows df, columns df with
  | [], _ => true
  | _, [] => true
  | _, _ => false
  end.

End Browser.

Module Program.
Import Reconcile Browser.

Definition digit (a : ascii) : option Z :=
  let n := nat_of_ascii a in
  if (Nat.leb 48 n && Nat.leb n 57)%bool then Some (Z.of_nat (n - 48))
  else None.

Fixpoint digits (acc : Z) (s : string) : option Z :=
  match s with
  | EmptyString => Some acc
  | String a r =>
      match digit a with
      | Some d => digits (10 * acc + d) r
      | None => None
      end
  end.

Definition number (s : string) : option Z :=
  match s with
  | EmptyString => None
  | _ => digits 0 s
  end.

(** [int(text)] on a decimal literal: blanks around it, an optional
    sign, digits (digit grouping with underscores is not covered). *)
Definition parse_int (s : string) : option Z :=
  match strip s with
  | String "+"%char r => number r
  | String "-"%char r => option_map Z.opp (number r)
  | t => number t
  end.

Fixpoint traverse {A B : Type} (f : A -> exn + B) (l : list A)
  : exn + list B :=
  match l with
  | [] => inr []
  | a :: t =>
      match f a with
      | inl e => inl e
      | inr b =>
          match traverse f t with
          | inl e => inl e
          | inr bs => inr (b :: bs)
          end
      end
  end.

(** Lines 193-196 on [courses_df].  Under a repeated Year or Course
    label [df[label]] is a frame, which has no [.str]
    ([AttributeError]); a repeated Semester label is refused by the
    merge ([ValueError]); otherwise [astype(int)] parses the Semester
    cells. *)
Definition course_records (df : DataFrame) : exn + list CourseRecord :=
  let times label := count_occ string_dec (columns df) label in
  if (Nat.eqb (times "Year") 1 && Nat.eqb (times "Course") 1)%bool
  then
    if Nat.eqb (times "Semester") 1
    then traverse
           (fun r =>
              match parse_int (nth 1 r "") with
              | Some n => inr (mkCourse (nth 0 r "") n (nth 2 r ""))
              | None => inl ValueError
              end)
           (rows df)
    else inl ValueError
  else inl AttributeError.

(** One turn of the prompt: the line typed, the site's behaviour and
    the outcome of [pd.read_excel(GRADES_FILE)]. *)
Record Query := mkQuery
  { typed : string;
    site : BrowserEnv;
    grades_file : exn + list GradeRecord }.

Definition prompt : string :=
  nl ++ "Enter the Professor's name, for example " ++ String (ascii_of_nat 34) "Rik Dey"
     ++ String (ascii_of_nat 34) ": ".

(** Lines 177-251.  Running out of input makes [input] raise. *)
Fixpoint main (inputs : list Query) : M unit :=
  match inputs with
  | [] => print prompt ;;; raise EOFError
  | q :: rest =>
      print prompt ;;;
      let prof_name := strip (typed q) in
      match prof_name with
      | EmptyString => print "No Professor name entered. Exiting."
      | _ =>
          print ("Fetching courses for '" ++ prof_name ++ "'...") ;;;
          courses_df <- get_professor_courses (site q) prof_name ;;
          if frame_empty courses_df
          then print "No courses found for this professor." ;;; main rest
          else
            grades_df <- lift (grades_file q) ;;
            courses <- lift (course_records courses_df) ;;
            let pivot := reconcile courses grades_df in
            print (nl ++ "Grade distribution for courses taught by "
                      ++ prof_name ++ ":") ;;;
            emit (Report pivot) ;;;
            emit (Chart pivot) ;;;
            main rest
      end
  end.

Definition fresh : World := mkWorld 0 [].

(** The world once the prompt and the line announcing the fetch are
    out. *)
Definition asked (w : World) (prof_name : string) : World :=
  said (said w (Line prompt))
       (Line ("Fetching courses for '" ++ prof_name ++ "'...")).

(** A page showing the course table of the scenario. *)
Definition course_page : Page :=
  Some [["ACADEMIC YEAR"; "SEM"; "COURSE NO"; "COURSE NAME"];
        ["2023-24"; "1"; "CS101A"; "CS101"]].

(** A page whose table's header lacks the expected names. *)
Definition odd_page : Page :=
  Some [["SESSION"; "TERM"; "TITLE"];
        ["2023-24"; "1"; "CS101"]].

(** A page whose table has a header row and no course under it. *)
Definition bare_page : Page :=
  Some [["ACADEMIC YEAR"; "SEM"; "COURSE NO"; "COURSE NAME"]].

(** A site that answers at once with the page [p]: the table keeps its
    shape for seven samples. *)
Definition steady_site (p : Page) : BrowserEnv :=
  mkEnv None None (Poller.ticks_from 0 (repeat p 7)) p.

End Program.

(** ** The chart *)

Module Plot.
Import Reconcile.





End Plot.


(** ** Reading a run of the poller *)




(** ** Further scenarios *)





(** * Properties *)

(** ** The stabilisation poller *)

Section PollerFacts.
Import Poller.
Variables (max_wait : Q) (stable_duration : Z).


Lemma timed_out_iff (elapsed : Q) :
  negb (Qle_bool elapsed max_wait) = true <-> (max_wait < elapsed)%Q.
Proof.
  rewrite negb_true_iff. split; intro H.
  - apply Qnot_le_lt. intro L. apply Qle_bool_iff in L. congruence.
  - destruct (Qle_bool elapsed max_wait) eqn:E; [|reflexivity].
    apply Qle_bool_iff in E. exfalso. exact (Qlt_not_le _ _ H E).
Qed.


Lemma elapsed_at_cons o rest n :
  elapsed_at (o :: rest) (S (S n)) = elapsed_at rest (S n).
Proof. reflexivity. Qed.


(** Once the clock has passed [max_wait] at some observation, the loop
    has left: the poller returns. *)
Lemma poll_loop_returns feed : forall st taken page elapsed,
  In (page, elapsed) feed -> (max_wait < elapsed)%Q ->
  exists n why,
    poll_loop max_wait stable_duration st taken feed = Stopped n why.
Proof.
  induction feed as [|[p e] rest IH]; intros st taken page elapsed Hin Hlt.
  - destruct Hin.
  - cbn [poll_loop].
    destruct (stable_duration <=? _); [eauto|].
    destruct (negb (Qle_bool e max_wait)) eqn:Ht; [eauto|].
    destruct Hin as [Heq|Hin].
    + inversion Heq; subst. apply timed_out_iff in Hlt. congruence.
    + eapply IH; eauto.
Qed.

(** While a frame has been seen, the counter is below the number of
    samples read. *)
Let counted (st : PollState) (taken : nat) : Prop :=
  match last_df st with
  | None => stable_secs st <= Z.of_nat taken
  | Some _ => stable_secs st + 1 <= Z.of_nat taken
  end.

Lemma poll_loop_counted feed : forall st taken n,
  counted st taken ->
  poll_loop max_wait stable_duration st taken feed = Stopped n Stable ->
  stable_duration + 1 <= Z.of_nat n.
Proof.
  induction feed as [|[page elapsed] rest IH]; intros st taken n Hc H.
  - discriminate.
  - cbn [poll_loop] in H.
    set (st' := observe st (current_shape page)) in *.
    assert (Hc' : counted st' (S taken)).
    { unfold counted in *. subst st'. unfold observe. cbn [last_df stable_secs].
      destruct (last_df st); [destruct (shape_eqb _ _)|]; lia. }
    destruct (stable_duration <=? stable_secs st') eqn:Hs.
    + inversion H; subst. apply Z.leb_le in Hs.
      unfold counted in Hc'. subst st'. cbn [observe last_df] in Hc'. lia.
    + destruct (negb (Qle_bool elapsed max_wait)); [discriminate|].
      eapply IH; eauto.
Qed.

End PollerFacts.



(** C10: the first shape sample never increments the unchanged-counter,
    so a poller that leaves through the stability test has taken at least
    [stable_duration + 1] samples. *)
Theorem stability_needs_one_more_sample
        (max_wait : Q) (stable_duration : Z) (feed : Poller.Feed) (n : nat)
        (H : Poller.wait_for_table_stabilize max_wait stable_duration feed
             = Poller.Stopped n Poller.Stable) :
  Poller.counter_after feed 1 = 0
  /\ stable_duration + 1 <= Z.of_nat n.
Proof.
  split.
  - destruct feed as [|[page elapsed] rest]; reflexivity.
  - eapply poll_loop_counted; [|exact H]. simpl. lia.
Qed.

Lemma stability_needs_one_more_sample_witness :
  Poller.wait_for_table_stabilize 60 6
    (Poller.ticks_from 0 (repeat (Some (Poller.blank_table 6 3)) 7))
  = Poller.Stopped 7 Poller.Stable
  /\ Poller.counter_after
       (Poller.ticks_from 0 (repeat (Some (Poller.blank_table 6 3)) 7)) 1 = 0
  /\ 6 + 1 <= Z.of_nat 7.
Proof.
  split; [reflexivity|].
  apply (stability_needs_one_more_sample 60 6
           (Poller.ticks_from 0 (repeat (Some (Poller.blank_table 6 3)) 7)) 7).
  reflexivity.
Defined.

(** ** Sorting and look-up *)

Section SortUnique.
Context {A : Type} (cmp : A -> A -> comparison).
Hypothesis cmp_eq : forall a b, cmp a b = Eq -> a = b.

Lemma insert_unique_in x y l :
  In x (insert_unique cmp y l) <-> x = y \/ In x l.
Proof.
  induction l as [|z t IH]; simpl.
  - intuition.
  - destruct (cmp y z) eqn:E; simpl.
    + apply cmp_eq in E. subst z. intuition.
    + intuition.
    + rewrite IH. intuition.
Qed.

Lemma sort_unique_in x l : In x (sort_unique cmp l) <-> In x l.
Proof.
  induction l as [|y t IH]; simpl; [tauto|].
  rewrite insert_unique_in, IH. intuition.
Qed.
End SortUnique.

Lemma key_eqb_eq (a b : Reconcile.Key) :
  Reconcile.key_eqb a b = true <-> a = b.
Proof.
  destruct a as [[y1 s1] c1], b as [[y2 s2] c2]. simpl.
  rewrite !andb_true_iff, !String.eqb_eq, Z.eqb_eq.
  split; [intros [[-> ->] ->]; reflexivity|].
  intro H; inversion H; auto.
Qed.

Lemma key_compare_eq (a b : Reconcile.Key) :
  Reconcile.key_compare a b = Eq -> a = b.
Proof.
  destruct a as [[y1 s1] c1], b as [[y2 s2] c2]. simpl.
  destruct (String.compare y1 y2) eqn:Ey; try discriminate.
  destruct (Z.compare s1 s2) eqn:Es; try discriminate.
  intro Ec.
  apply String.compare_eq_iff in Ey, Ec. apply Z.compare_eq in Es.
  congruence.
Qed.



(** ** The reconciliation engine *)

Section ReconcileFacts.
Import Reconcile.
Variables (courses : list CourseRecord) (grades : list GradeRecord).

Let rows := pivot_input courses grades.

(** A merged row with a grade comes from a course and a grade record
    that agree on the key. *)
Lemma merge_graded cs gs k g n :
  In (k, g, n) (graded (merge cs gs)) <->
  exists c x, In c cs /\ In x gs /\ course_key c = grade_key x
              /\ k = course_key c /\ g = Grade x /\ n = Count x.
Proof.
  unfold graded, merge. rewrite in_flat_map. split.
  - intros ([k' o] & Hin & Hg). apply in_flat_map in Hin.
    destruct Hin as (c & Hc & Hin). simpl in Hg.
    destruct o as [[g' n']|]; [|destruct Hg].
    destruct Hg as [Hg|[]]. inversion Hg; subst.
    destruct (filter _ gs) as [|m ms] eqn:Hf.
    + destruct Hin as [Hin|[]]. discriminate.
    + rewrite <- Hf in Hin. apply in_map_iff in Hin.
      destruct Hin as (x & Hx & Hin). apply filter_In in Hin.
      destruct Hin as [Hin Hk]. apply key_eqb_eq in Hk.
      inversion Hx; subst. exists c, x. auto 10.
  - intros (c & x & Hc & Hx & Hk & -> & -> & ->).
    exists (course_key c, Some (Grade x, Count x)). split; [|simpl; auto].
    apply in_flat_map. exists c. split; [exact Hc|].
    assert (Hin : In x (filter (fun g => key_eqb (course_key c) (grade_key g)) gs)).
    { apply filter_In. split; [exact Hx|]. now apply key_eqb_eq. }
    destruct (filter _ gs) as [|m ms] eqn:Hf; [destruct Hin|].
    rewrite <- Hf. apply in_map_iff. exists x. rewrite Hf. auto.
Qed.





(** A key has a row exactly when some course and some record of an
    allowed grade agree on it after normalisation. *)
Lemma reconcile_keys k :
  In k (map key (reconcile courses grades)) <->
  exists c x, In c courses /\ In x grades
              /\ existsb (String.eqb (Grade x)) ALLOWED_GRADES = true
              /\ course_key (normalize_course c) = grade_key (normalize_grade x)
              /\ k = course_key (normalize_course c).
Proof.
  unfold reconcile, reindex, pivot_table. fold (pivot_input courses grades).
  fold rows. rewrite !map_map. cbn [finish key fst]. rewrite map_id.
  rewrite sort_unique_in by exact key_compare_eq.
  rewrite in_map_iff. unfold rows, pivot_input. split.
  - intros ([[k' g] n] & <- & Hin). apply merge_graded in Hin.
    destruct Hin as (c & x & Hc & Hx & Hk & -> & _).
    apply in_map_iff in Hc, Hx.
    destruct Hc as (c0 & <- & Hc0). destruct Hx as (x0 & <- & Hx0).
    apply filter_In in Hx0. exists c0, x0. tauto.
  - intros (c & x & Hc & Hx & Ha & Hk & ->).
    exists (course_key (normalize_course c), Grade x, Count x).
    split; [reflexivity|]. apply merge_graded.
    exists (normalize_course c), (normalize_grade x).
    repeat split; auto using in_map.
    apply in_map. apply filter_In. auto.
Qed.



End ReconcileFacts.

(** ** Rounding *)




(** ** Claims on the reconciled rows *)












(** C2 on the code: a course listed by the site with no record in the
    grade sheet gets no row at all.  The left join keeps it with a NaN
    grade, and the pivot's grouping then leaves that row out. *)
Theorem unmatched_course_has_no_row :
  map Reconcile.key
      (Reconcile.reconcile [Reconcile.cs101; Reconcile.ma102]
                           Reconcile.cs101_grades)
  = [("2023-24", 1, "CS101")]
  /\ Reconcile.merge [Reconcile.cs101; Reconcile.ma102] Reconcile.cs101_grades
     = [(("2023-24", 1, "CS101"), Some ("A", 10));
        (("2023-24", 1, "CS101"), Some ("B", 5));
        (("2023-24", 1, "CS101"), Some ("S", 2));
        (("2023-24", 2, "MA102"), None)].
Proof. split; reflexivity. Qed.

(** ** The browser session and the query loop *)

Section SessionFacts.
Import Browser Program.

Lemma try_finally_quit {A : Type} (body : M A) (w w' : World) (r : Outcome A) :
  try_finally body quit w = (w', r) -> r <> Stall ->
  exists w1, body w = (w1, r) /\ w' = mkWorld (pred (live w1)) (stdout w1).
Proof.
  unfold try_finally, quit. destruct (body w) as [w1 [a|e|]]; intros H Hr;
    inversion H; subst; try congruence; eauto.
Qed.

(** The statements between [try:] and [finally:] open and close no
    session. *)
Lemma body_keeps_sessions (env : BrowserEnv) (w w1 : World)
      (r : Outcome DataFrame) :
  (attempt (navigate env) ;;;
   stabilize (samples env) ;;;
   print (nl ++ "Please wait...") ;;;
   lift (extract (final_page env))) w = (w1, r) ->
  live w1 = live w.
Proof.
  unfold bind, attempt, stabilize, print, emit, lift, ret, raise, stall.
  destruct (navigate env); [intro H; inversion H; reflexivity|].
  destruct (Poller.wait_for_table_stabilize 60 6 (samples env));
    [|intro H; inversion H; reflexivity].
  destruct (extract (final_page env)); intro H; inversion H; reflexivity.
Qed.

Lemma get_professor_courses_live env prof_name w w' r :
  get_professor_courses env prof_name w = (w', r) -> r <> Stall ->
  live w' = live w.
Proof.
  unfold get_professor_courses, bind at 1, open_session.
  destruct (launch env); [intro H; inversion H; reflexivity|].
  intros H Hr. apply try_finally_quit in H; [|exact Hr].
  destruct H as (w1 & Hbody & ->). apply body_keeps_sessions in Hbody.
  simpl in *. rewrite Hbody. reflexivity.
Qed.

Lemma main_live inputs : forall w w' r,
  main inputs w = (w', r) -> r <> Stall -> live w' = live w.
Proof.
  induction inputs as [|q rest IH]; intros w w' r H Hr.
  - inversion H; reflexivity.
  - cbn [main] in H. unfold bind at 1, print at 1, emit at 1 in H.
    destruct (strip (typed q)) as [|a name] eqn:Hname.
    + inversion H; reflexivity.
    + unfold bind at 1, print at 1, emit at 1 in H.
      unfold bind at 1 in H.
      destruct (get_professor_courses _ _ _) as [w1 [df| |]] eqn:Hget;
        try (inversion H; subst;
             apply get_professor_courses_live in Hget; [exact Hget|congruence]).
      * apply get_professor_courses_live in Hget; [|discriminate].
        simpl in Hget.
        destruct (frame_empty df).
        -- unfold bind at 1, print at 1, emit at 1 in H.
           apply IH in H; [|exact Hr]. simpl in H. congruence.
        -- unfold bind at 1, lift at 1 in H.
           destruct (grades_file q); [inversion H; subst; exact Hget|].
           unfold ret at 1, bind at 1, lift at 1 in H.
           destruct (course_records df); [inversion H; subst; exact Hget|].
           unfold ret at 1, bind, print, emit in H.
           apply IH in H; [|exact Hr]. simpl in H. congruence.
Qed.

End SessionFacts.

(** C9: on every exit path of a professor query, whether the courses are
    returned or an error is raised, the browser session opened for the
    query has been released when [get_professor_courses] hands control
    back; and no run of the query loop ends with a session still live. *)
Theorem session_released_on_every_exit
        (env : Browser.BrowserEnv) (prof_name : string) (w w' : World)
        (r : Outcome Browser.DataFrame)
        (Hrun : Browser.get_professor_courses env prof_name w = (w', r))
        (Hexit : r <> Stall) :
  live w' = live w
  /\ forall inputs wm rm,
       Program.main inputs w = (wm, rm) -> rm <> Stall -> live wm = live w.
Proof.
  split.
  - eapply get_professor_courses_live; eauto.
  - intros inputs wm rm. apply main_live.
Qed.

Lemma session_released_on_every_exit_witness :
  live (fst (Browser.get_professor_courses
               (Program.steady_site Program.odd_page) "Rik Dey" Program.fresh))
  = live Program.fresh.
Proof.
  refine (proj1 (session_released_on_every_exit
                   (Program.steady_site Program.odd_page) "Rik Dey"
                   Program.fresh _ (Raise KeyError) _ _)).
  - reflexivity.
  - discriminate.
Defined.

Section QueryFacts.
Import Browser Program.

(** One turn of the loop for a name that is not blank. *)
Lemma main_query q rest w :
  strip (typed q) <> "" ->
  main (q :: rest) w
  = (courses_df <- get_professor_courses (site q) (strip (typed q)) ;;
     if frame_empty courses_df
     then print "No courses found for this professor." ;;; main rest
     else
       grades_df <- lift (grades_file q) ;;
       courses <- lift (course_records courses_df) ;;
       print (nl ++ "Grade distribution for courses taught by "
                 ++ strip (typed q) ++ ":") ;;;
       emit (Report (Reconcile.reconcile courses grades_df)) ;;;
       emit (Chart (Reconcile.reconcile courses grades_df)) ;;;
       main rest)
      (asked w (strip (typed q))).
Proof.
  intro Hname. cbn [main]. unfold bind at 1, print at 1, emit at 1.
  destruct (strip (typed q)) as [|a name]; [congruence|].
  reflexivity.
Qed.

(** A query during which the browser starts, the form goes through and
    the poller stops: the outcome is that of the final parse, and the
    session is gone. *)
Lemma get_professor_courses_parse env prof_name w n why :
  launch env = None -> navigate env = None ->
  Poller.wait_for_table_stabilize 60 6 (samples env) = Poller.Stopped n why ->
  get_professor_courses env prof_name w
  = (said w (Line (nl ++ "Please wait...")),
     match extract (final_page env) with
     | inl e => Raise e
     | inr df => Val df
     end).
Proof.
  intros Hl Hn Hp.
  unfold get_professor_courses, bind at 1, open_session. rewrite Hl.
  unfold try_finally, bind, attempt, stabilize, print, emit, lift, quit.
  rewrite Hn, Hp. unfold ret, raise, said. simpl.
  destruct (extract (final_page env)); destruct w; reflexivity.
Qed.

Lemma headers_present_dec (labels : list string) :
  forallb (fun n => existsb (String.eqb n) labels) wanted = true
  <-> forall n, In n wanted -> In n labels.
Proof.
  rewrite forallb_forall. split; intros H n Hn.
  - apply H in Hn. apply existsb_exists in Hn.
    destruct Hn as (l & Hl & E). apply String.eqb_eq in E. now subst.
  - apply existsb_exists. exists n. split; [auto|apply String.eqb_refl].
Qed.

End QueryFacts.

(** C6: when the extracted course sequence is empty, the query prints
    "No courses found for this professor." and the loop goes on to the
    next prompt; the grade sheet is not read, and nothing is merged,
    pivoted or averaged: whatever the grade file holds, or fails with,
    the outcome is the same. *)
Theorem no_courses_short_circuits
        (q : Program.Query) (rest : list Program.Query) (w w1 : World)
        (courses_df : Browser.DataFrame)
        (Hname : strip (Program.typed q) <> "")
        (Hfetch : Browser.get_professor_courses
                    (Program.site q) (strip (Program.typed q))
                    (Program.asked w (strip (Program.typed q)))
                  = (w1, Val courses_df))
        (Hempty : Browser.rows courses_df = []) :
  forall grades_file,
    Program.main
      (Program.mkQuery (Program.typed q) (Program.site q) grades_file :: rest) w
    = Program.main rest (said w1 (Line "No courses found for this professor.")).
Proof.
  intro gf. rewrite main_query by exact Hname. cbn [Program.typed Program.site].
  unfold bind at 1. rewrite Hfetch.
  unfold Browser.frame_empty. rewrite Hempty. reflexivity.
Qed.

Lemma no_courses_short_circuits_witness :
  Program.main
    [Program.mkQuery "Rik Dey " (Program.steady_site Program.bare_page)
                     (inl FileNotFoundError)]
    Program.fresh
  = Program.main []
      (said (said (Program.asked Program.fresh "Rik Dey")
                  (Line (nl ++ "Please wait...")))
            (Line "No courses found for this professor.")).
Proof.
  apply (no_courses_short_circuits
           (Program.mkQuery "Rik Dey " (Program.steady_site Program.bare_page)
                            (inl FileNotFoundError))
           [] Program.fresh
           (said (Program.asked Program.fresh "Rik Dey")
                 (Line (nl ++ "Please wait...")))
           (Browser.mkFrame ["Year"; "Semester"; "Course"] [])).
  - discriminate.
  - reflexivity.
  - reflexivity.
Defined.

(** C7, as the specification words it: a table without the expected
    headers would be reported as "no courses found", not as a crash.  The
    program prints no such line: the [KeyError] leaves [main], and the
    next prompt never comes. *)
Lemma missing_headers_end_the_program :
  Program.main
    [Program.mkQuery "Rik Dey" (Program.steady_site Program.odd_page)
                     (inr Reconcile.cs101_grades);
     Program.mkQuery "" (Program.steady_site None) (inr [])]
    Program.fresh
  = (mkWorld 0 [Line Program.prompt;
                Line "Fetching courses for 'Rik Dey'...";
                Line (nl ++ "Please wait...")],
     Raise KeyError).
Proof. reflexivity. Qed.

(** C7 (amended): when one of the expected header names (after the
    renaming of ACADEMIC YEAR, SEM and COURSE NAME) is absent from the
    header row, the extractor raises [KeyError]; nothing catches it, so
    it ends the query loop, with the session released and no "no courses
    found" line.  When the names are present the extractor returns one
    row per table row after row 0, in the table's order, holding the
    cells of the columns Year, Semester and Course. *)
Theorem missing_headers_raise_key_error (header : list string) (body : Table) :
  let labels := map Browser.rename_column header in
  ((exists name, In name Browser.wanted /\ ~ In name labels) ->
   Browser.extract (Some (header :: body)) = inl KeyError
   /\ forall q rest w n why,
        strip (Program.typed q) <> "" ->
        Browser.launch (Program.site q) = None ->
        Browser.navigate (Program.site q) = None ->
        Poller.wait_for_table_stabilize 60 6 (Browser.samples (Program.site q))
        = Poller.Stopped n why ->
        Browser.final_page (Program.site q) = Some (header :: body) ->
        Program.main (q :: rest) w
        = (said (Program.asked w (strip (Program.typed q)))
                (Line (nl ++ "Please wait...")),
           Raise KeyError))
  /\ ((forall name, In name Browser.wanted -> In name labels) ->
      exists df,
        Browser.extract (Some (header :: body)) = inr df
        /\ Browser.rows df = map (fun r => Browser.select labels r "") body
        /\ List.length (Browser.rows df) = List.length body).
Proof.
  intro labels. split.
  - intros (name & Hw & Hout).
    assert (Hx : Browser.extract (Some (header :: body)) = inl KeyError).
    { unfold Browser.extract. fold labels.
      destruct (forallb _ Browser.wanted) eqn:E; [|reflexivity].
      pose proof (proj1 (headers_present_dec labels) E) as Hall.
      exfalso. auto. }
    split; [exact Hx|].
    intros q rest w n why Hname Hl Hn Hp Hf.
    rewrite main_query by exact Hname. unfold bind at 1.
    rewrite (get_professor_courses_parse _ _ _ n why Hl Hn Hp), Hf, Hx.
    reflexivity.
  - intro Hall. apply (proj2 (headers_present_dec labels)) in Hall.
    unfold Browser.extract. fold labels. rewrite Hall.
    eexists. split; [reflexivity|]. cbn [Browser.rows].
    split; [reflexivity|apply length_map].
Qed.

Lemma missing_headers_raise_key_error_witness :
  Browser.extract Program.odd_page = inl KeyError
  /\ exists df,
       Browser.extract Program.course_page = inr df
       /\ Browser.rows df = [["2023-24"; "1"; "CS101"]].
Proof.
  split.
  - refine (proj1 (proj1 (missing_headers_raise_key_error
                            ["SESSION"; "TERM"; "TITLE"]
                            [["2023-24"; "1"; "CS101"]]) _)).
    exists "Year". split; [left; reflexivity|].
    simpl. intros [H|[H|[H|[]]]]; discriminate.
  - destruct (proj2 (missing_headers_raise_key_error
                       ["ACADEMIC YEAR"; "SEM"; "COURSE NO"; "COURSE NAME"]
                       [["2023-24"; "1"; "CS101A"; "CS101"]]))
      as (df & Hx & Hrows & _).
    + simpl. intros name [<-|[<-|[<-|[]]]]; auto 10.
    + exists df. split; [exact Hx|]. rewrite Hrows. reflexivity.
Defined.

(** The earlier variant [testing.py] prints the bare pivot: on the
    scenario its frame has the three grade columns that occur and no
    other. *)
Remark testing_report_keeps_bare_pivot :
  Testing.report [Reconcile.cs101] Reconcile.cs101_grades
  = [(("2023-24", 1, "CS101"), [("A", 10); ("B", 5); ("S", 2)])].
Proof. reflexivity. Qed.

(** * Further properties of the code *)

(** ** More on the poller *)


Lemma poll_loop_returns_by (max_wait : Q) (stable_duration : Z)
      (feed : Poller.Feed) :
  forall st taken k,
    (1 <= k <= List.length feed)%nat ->
    (max_wait < Poller.elapsed_at feed k)%Q ->
    exists n why,
      Poller.poll_loop max_wait stable_duration st taken feed
      = Poller.Stopped n why
      /\ (n <= taken + k)%nat.
Proof.
  induction feed as [|[page elapsed] rest IH]; intros st taken k Hk Hlate.
  - simpl in Hk. lia.
  - cbn [Poller.poll_loop].
    destruct (stable_duration <=? _).
    + exists (S taken), Poller.Stable. split; [reflexivity|lia].
    + destruct (negb (Qle_bool elapsed max_wait)) eqn:Ht.
      * exists (S taken), Poller.TimedOut. split; [reflexivity|lia].
      * destruct k as [|[|k]]; [lia| |].
        -- change (Poller.elapsed_at ((page, elapsed) :: rest) 1) with elapsed
            in Hlate.
           apply timed_out_iff in Hlate. congruence.
        -- rewrite elapsed_at_cons in Hlate.
           destruct (IH (Poller.observe st (Poller.current_shape page))
                        (S taken) (S k)) as (n & why & Hrun & Hn);
             [simpl in Hk; lia|exact Hlate|].
           exists n, why. split; [exact Hrun|lia].
Qed.

(** X1: once the clock read at some observation has passed [max_wait],
    the poller has returned, at that observation at the latest. *)
Theorem poller_returns_by_timeout
        (max_wait : Q) (stable_duration : Z) (feed : Poller.Feed) (k : nat)
        (Hk : (1 <= k <= List.length feed)%nat)
        (Hlate : (max_wait < Poller.elapsed_at feed k)%Q) :
  exists n why,
    Poller.wait_for_table_stabilize max_wait stable_duration feed
    = Poller.Stopped n why
    /\ (n <= k)%nat.
Proof.
  destruct (poll_loop_returns_by max_wait stable_duration feed
                                 Poller.start 0 k Hk Hlate)
    as (n & why & Hrun & Hn).
  exists n, why. split; [exact Hrun|lia].
Qed.

Lemma poller_returns_by_timeout_witness :
  exists n why,
    Poller.wait_for_table_stabilize 60 100
      (Poller.ticks_from 0 (repeat None 62))
    = Poller.Stopped n why
    /\ (n <= 62)%nat.
Proof.
  apply (poller_returns_by_timeout 60 100
           (Poller.ticks_from 0 (repeat None 62)) 62).
  - simpl. lia.
  - reflexivity.
Defined.










(** ** Order of the rows *)

Section SortedUnique.
Context {A : Type} (cmp : A -> A -> comparison).
Hypothesis cmp_eq : forall a b, cmp a b = Eq -> a = b.
Hypothesis cmp_antisym : forall a b, cmp a b = CompOpp (cmp b a).
Hypothesis cmp_trans :
  forall a b c, cmp a b = Lt -> cmp b c = Lt -> cmp a c = Lt.

Let below (a b : A) : Prop := cmp a b = Lt.

Lemma insert_unique_sorted x l :
  StronglySorted below l -> StronglySorted below (insert_unique cmp x l).
Proof.
  induction 1 as [|y t Hsorted IH Hy]; simpl.
  - repeat constructor.
  - destruct (cmp x y) eqn:E.
    + now constructor.
    + constructor; [now constructor|]. constructor; [exact E|].
      eapply Forall_impl; [|exact Hy]. intros z Hz. unfold below in *. eauto.
    + constructor; [exact IH|]. apply Forall_forall. intros z Hz.
      apply insert_unique_in in Hz; [|exact cmp_eq].
      destruct Hz as [->|Hz].
      * unfold below. rewrite cmp_antisym, E. reflexivity.
      * rewrite Forall_forall in Hy. auto.
Qed.

Lemma sort_unique_sorted l : StronglySorted below (sort_unique cmp l).
Proof.
  induction l as [|x t IH]; simpl; [constructor|].
  now apply insert_unique_sorted.
Qed.

Lemma sorted_below_nodup l : StronglySorted below l -> NoDup l.
Proof.
  induction 1 as [|y t Hsorted IH Hy]; constructor; [|exact IH].
  intro Hin. rewrite Forall_forall in Hy. apply Hy in Hin.
  unfold below in Hin. pose proof (cmp_antisym y y) as H.
  rewrite Hin in H. discriminate.
Qed.
End SortedUnique.

Lemma ascii_compare_trans (a b c : ascii) :
  Ascii.compare a b = Lt -> Ascii.compare b c = Lt -> Ascii.compare a c = Lt.
Proof.
  unfold Ascii.compare. rewrite !N.compare_lt_iff. apply N.lt_trans.
Qed.

Lemma string_compare_trans : forall a b c : string,
  String.compare a b = Lt -> String.compare b c = Lt -> String.compare a c = Lt.
Proof.
  induction a as [|x a IH]; intros [|y b] [|z c]; simpl;
    try discriminate; try reflexivity.
  destruct (Ascii.compare x y) eqn:Exy; try discriminate;
    destruct (Ascii.compare y z) eqn:Eyz; try discriminate.
  - apply Ascii.compare_eq_iff in Exy, Eyz. subst.
    replace (Ascii.compare z z) with Eq.
    + apply IH.
    + pose proof (Ascii.compare_antisym z z) as H.
      destruct (Ascii.compare z z); simpl in H; congruence.
  - apply Ascii.compare_eq_iff in Exy. subst. rewrite Eyz. reflexivity.
  - apply Ascii.compare_eq_iff in Eyz. subst. rewrite Exy. reflexivity.
  - rewrite (ascii_compare_trans x y z Exy Eyz). reflexivity.
Qed.

Lemma string_compare_refl (s : string) : String.compare s s = Eq.
Proof.
  pose proof (String.compare_antisym s s) as H.
  destruct (String.compare s s); simpl in H; congruence.
Qed.

Lemma key_compare_antisym (a b : Reconcile.Key) :
  Reconcile.key_compare a b = CompOpp (Reconcile.key_compare b a).
Proof.
  destruct a as [[y1 s1] c1], b as [[y2 s2] c2]. simpl.
  rewrite (String.compare_antisym y1 y2), (Z.compare_antisym s2 s1),
    (String.compare_antisym c1 c2).
  destruct (String.compare y2 y1); simpl; try reflexivity.
  destruct (s2 ?= s1); reflexivity.
Qed.

Lemma key_compare_lt (a b : Reconcile.Key) :
  Reconcile.key_compare a b = Lt <->
  let '(y1, s1, c1) := a in
  let '(y2, s2, c2) := b in
  String.compare y1 y2 = Lt
  \/ (y1 = y2 /\ (s1 < s2 \/ (s1 = s2 /\ String.compare c1 c2 = Lt))).
Proof.
  destruct a as [[y1 s1] c1], b as [[y2 s2] c2]. simpl. split.
  - destruct (String.compare y1 y2) eqn:Ey; try discriminate; [|auto].
    apply String.compare_eq_iff in Ey. subst.
    destruct (s1 ?= s2) eqn:Es; try discriminate.
    + apply Z.compare_eq in Es. auto.
    + rewrite Z.compare_lt_iff in Es. auto.
  - intros [H|[-> [H|[-> H]]]].
    + now rewrite H.
    + rewrite string_compare_refl. apply Z.compare_lt_iff in H. now rewrite H.
    + now rewrite string_compare_refl, Z.compare_refl.
Qed.

Lemma key_compare_trans (a b c : Reconcile.Key) :
  Reconcile.key_compare a b = Lt -> Reconcile.key_compare b c = Lt ->
  Reconcile.key_compare a c = Lt.
Proof.
  rewrite !key_compare_lt.
  destruct a as [[y1 s1] c1], b as [[y2 s2] c2], c as [[y3 s3] c3].
  intros [H1|[-> H1]] [H2|[-> H2]].
  - left. eapply string_compare_trans; eauto.
  - now left.
  - now left.
  - right. split; [reflexivity|].
    destruct H1 as [H1|[-> H1]], H2 as [H2|[-> H2]]; try (left; lia).
    right. split; [reflexivity|]. eapply string_compare_trans; eauto.
Qed.

Lemma reconcile_key_list courses grades :
  map Reconcile.key (Reconcile.reconcile courses grades)
  = sort_unique Reconcile.key_compare
                (map (fun x => fst (fst x))
                     (Reconcile.pivot_input courses grades)).
Proof.
  unfold Reconcile.reconcile, Reconcile.reindex, Reconcile.pivot_table.
  fold (Reconcile.pivot_input courses grades).
  rewrite !map_map. cbn [Reconcile.finish Reconcile.key fst]. apply map_id.
Qed.

(** X4: the rows come out in strictly ascending order of
    (Year, Semester, Course), so no two rows share a key. *)
Theorem rows_ascend_by_key
        (courses : list Reconcile.CourseRecord)
        (grades : list Reconcile.GradeRecord) :
  StronglySorted (fun a b => Reconcile.key_compare a b = Lt)
                 (map Reconcile.key (Reconcile.reconcile courses grades))
  /\ NoDup (map Reconcile.key (Reconcile.reconcile courses grades)).
Proof.
  rewrite reconcile_key_list.
  assert (H : StronglySorted (fun a b => Reconcile.key_compare a b = Lt)
                (sort_unique Reconcile.key_compare
                   (map (fun x => fst (fst x))
                        (Reconcile.pivot_input courses grades)))).
  { apply sort_unique_sorted.
    - exact key_compare_eq.
    - exact key_compare_antisym.
    - exact key_compare_trans. }
  split; [exact H|].
  eapply sorted_below_nodup; [exact key_compare_antisym|exact H].
Qed.

(** ** What the cells hold *)

(** X5: a key has a row in the output exactly when some listed course and
    some record of an allowed grade agree on (Year, Semester, Course)
    once Year and Course are stripped. *)
Theorem row_iff_course_has_grades
        (courses : list Reconcile.CourseRecord)
        (grades : list Reconcile.GradeRecord) (k : Reconcile.Key) :
  In k (map Reconcile.key (Reconcile.reconcile courses grades)) <->
  exists c x,
    In c courses /\ In x grades
    /\ existsb (String.eqb (Reconcile.Grade x)) Reconcile.ALLOWED_GRADES = true
    /\ Reconcile.course_key (Reconcile.normalize_course c)
       = Reconcile.grade_key (Reconcile.normalize_grade x)
    /\ k = Reconcile.course_key (Reconcile.normalize_course c).
Proof. apply reconcile_keys. Qed.

Section CellFacts.
Import Reconcile.










End CellFacts.



(** ** Blanks around the key text *)

Lemma lstrip_head (s : string) :
  lstrip s = EmptyString
  \/ exists a r, lstrip s = String a r /\ is_space a = false.
Proof.
  induction s as [|a r IH]; simpl; [now left|].
  destruct (is_space a) eqn:E; [exact IH|]. right. eauto.
Qed.

Lemma rstrip_keeps_head (a : ascii) (r : string) :
  is_space a = false -> exists r', rstrip (String a r) = String a r'.
Proof.
  intro E. simpl. destruct (rstrip r); [rewrite E|]; eauto.
Qed.

Lemma rstrip_idempotent (s : string) : rstrip (rstrip s) = rstrip s.
Proof.
  induction s as [|a r IH]; [reflexivity|]. simpl.
  destruct (rstrip r) as [|b r'] eqn:E.
  - destruct (is_space a) eqn:Ea; [reflexivity|]. simpl. now rewrite Ea.
  - change (rstrip (String a (String b r')) = String a (String b r')).
    cbn [rstrip]. cbn [rstrip] in IH.
    destruct (rstrip r') eqn:E'.
    + destruct (is_space b); [discriminate|]. now inversion IH.
    + now rewrite IH.
Qed.

Lemma strip_idempotent (s : string) : strip (strip s) = strip s.
Proof.
  unfold strip. destruct (lstrip_head s) as [E|(a & r & E & Ha)]; rewrite E.
  - reflexivity.
  - destruct (rstrip_keeps_head a r Ha) as (r' & Er). rewrite Er.
    cbn [lstrip]. rewrite Ha, <- Er. apply rstrip_idempotent.
Qed.

(** X7: the join does not see blanks around Year and Course: stripping
    them beforehand, on either side, changes nothing in the output. *)
Theorem reconcile_ignores_surrounding_blanks
        (courses : list Reconcile.CourseRecord)
        (grades : list Reconcile.GradeRecord) :
  Reconcile.reconcile (map Reconcile.normalize_course courses)
                      (map Reconcile.normalize_grade grades)
  = Reconcile.reconcile courses grades.
Proof.
  unfold Reconcile.reconcile. do 3 f_equal. f_equal.
  - rewrite map_map. apply map_ext. intros [y s c].
    unfold Reconcile.normalize_course. simpl. now rewrite !strip_idempotent.
  - induction grades as [|x gs IH]; [reflexivity|].
    cbn [map filter]. cbn [Reconcile.normalize_grade Reconcile.Grade].
    destruct (existsb _ Reconcile.ALLOWED_GRADES); cbn [map]; rewrite IH;
      [|reflexivity].
    f_equal. destruct x as [y s c g n]. unfold Reconcile.normalize_grade.
    simpl. now rewrite !strip_idempotent.
Qed.

(** ** Rows without a weighted grade *)





(** ** The chart *)












(** ** What a query makes of the page *)

(** X11: a page whose table has the expected header row and no course
    under it yields an empty frame: the query prints "No courses found
    for this professor." and the loop goes on to the next prompt. *)
Theorem header_only_table_reports_no_courses
        (q : Program.Query) (rest : list Program.Query) (w : World)
        (n : nat) (why : Poller.Exit) (header : list string)
        (Hname : strip (Program.typed q) <> "")
        (Hlaunch : Browser.launch (Program.site q) = None)
        (Hnav : Browser.navigate (Program.site q) = None)
        (Hpoll : Poller.wait_for_table_stabilize
                   60 6 (Browser.samples (Program.site q))
                 = Poller.Stopped n why)
        (Hpage : Browser.final_page (Program.site q) = Some [header])
        (Hhead : forall name, In name Browser.wanted ->
                              In name (map Browser.rename_column header)) :
  Program.main (q :: rest) w
  = Program.main rest
      (said (said (Program.asked w (strip (Program.typed q)))
                  (Line (nl ++ "Please wait...")))
            (Line "No courses found for this professor.")).
Proof.
  rewrite main_query by exact Hname. unfold bind at 1.
  rewrite (get_professor_courses_parse _ _ _ n why Hlaunch Hnav Hpoll), Hpage.
  unfold Browser.extract.
  rewrite (proj2 (headers_present_dec (map Browser.rename_column header)) Hhead).
  reflexivity.
Qed.

Lemma header_only_table_reports_no_courses_witness :
  Program.main
    [Program.mkQuery "Rik Dey" (Program.steady_site Program.bare_page)
                     (inr Reconcile.cs101_grades)]
    Program.fresh
  = Program.main []
      (said (said (Program.asked Program.fresh "Rik Dey")
                  (Line (nl ++ "Please wait...")))
            (Line "No courses found for this professor.")).
Proof.
  apply (header_only_table_reports_no_courses
           (Program.mkQuery "Rik Dey" (Program.steady_site Program.bare_page)
                            (inr Reconcile.cs101_grades))
           [] Program.fresh 7 Poller.Stable
           ["ACADEMIC YEAR"; "SEM"; "COURSE NO"; "COURSE NAME"]).
  - discriminate.
  - reflexivity.
  - reflexivity.
  - reflexivity.
  - reflexivity.
  - simpl. intros name [<-|[<-|[<-|[]]]]; auto 10.
Defined.



(** ** The extracted frame *)

Section PositionsFacts.
Import Browser.

Let from (start : nat) (name : string) (labels : list string) : list nat :=
  map fst (filter (fun p => (snd p =? name)%string)
                  (combine (seq start (List.length labels)) labels)).

Lemma positions_from_count name : forall labels start,
  List.length (from start name labels) = count_occ string_dec labels name.
Proof.
  induction labels as [|l labels IH]; intro start; [reflexivity|].
  unfold from in *. cbn [List.length seq combine filter snd count_occ].
  destruct (String.eqb_spec l name) as [->|Hne].
  - destruct (string_dec name name); [|congruence].
    cbn [map List.length]. now rewrite IH.
  - destruct (string_dec l name); [congruence|]. apply IH.
Qed.

Lemma positions_from_nth name : forall labels start i,
  In i (from start name labels) ->
  (start <= i)%nat /\ nth (i - start) labels "" = name.
Proof.
  induction labels as [|l labels IH]; intros start i Hin; [destruct Hin|].
  unfold from in *. cbn [List.length seq combine filter snd] in Hin.
  destruct (String.eqb_spec l name) as [->|Hne].
  - destruct Hin as [<-|Hin].
    + rewrite Nat.sub_diag. auto.
    + apply IH in Hin. destruct Hin as [Hle Hn]. split; [lia|].
      replace (i - start)%nat with (S (i - S start)) by lia. exact Hn.
  - apply IH in Hin. destruct Hin as [Hle Hn]. split; [lia|].
    replace (i - start)%nat with (S (i - S start)) by lia. exact Hn.
Qed.

Lemma positions_single name labels :
  count_occ string_dec labels name = 1%nat ->
  exists i, positions name labels = [i] /\ nth i labels "" = name.
Proof.
  intro H.
  assert (Hlen : List.length (positions name labels)
                 = count_occ string_dec labels name)
    by exact (positions_from_count name labels 0).
  assert (Hnth : forall i, In i (positions name labels) ->
                           (0 <= i)%nat /\ nth (i - 0) labels "" = name)
    by exact (positions_from_nth name labels 0).
  rewrite H in Hlen.
  destruct (positions name labels) as [|i [|j t]]; try discriminate.
  exists i. split; [reflexivity|].
  destruct (Hnth i (or_introl eq_refl)) as [_ Hi].
  now rewrite Nat.sub_0_r in Hi.
Qed.

End PositionsFacts.

(** X13: when each of Year, Semester and Course labels exactly one
    column after the renaming, wherever it stands and whatever other
    columns there are, the extractor returns the three columns in that
    order, one row per table row under the header, in the table's
    order. *)
Theorem extract_keeps_the_three_columns
        (header : list string) (body : Table)
        (Honce : forall name,
            In name Browser.wanted ->
            count_occ string_dec (map Browser.rename_column header) name
            = 1%nat) :
  let labels := map Browser.rename_column header in
  exists iy isem ic,
    nth iy labels "" = "Year" /\ nth isem labels "" = "Semester"
    /\ nth ic labels "" = "Course"
    /\ Browser.extract (Some (header :: body))
       = inr (Browser.mkFrame
                ["Year"; "Semester"; "Course"]
                (map (fun r => [nth iy r ""; nth isem r ""; nth ic r ""])
                     body)).
Proof.
  intro labels.
  destruct (positions_single "Year" labels) as (iy & Py & Hy);
    [apply Honce; simpl; auto|].
  destruct (positions_single "Semester" labels) as (isem & Ps & Hs);
    [apply Honce; simpl; auto|].
  destruct (positions_single "Course" labels) as (ic & Pc & Hc);
    [apply Honce; simpl; auto|].
  exists iy, isem, ic. repeat split; try assumption.
  unfold Browser.extract. fold labels.
  assert (Hall : forall name, In name Browser.wanted -> In name labels).
  { intros name Hn. apply (count_occ_In string_dec). unfold labels.
    rewrite (Honce name Hn). lia. }
  rewrite (proj2 (headers_present_dec labels) Hall).
  unfold Browser.select, Browser.wanted. cbn [flat_map].
  rewrite Py, Ps, Pc. cbn [map app]. rewrite Hy, Hs, Hc. reflexivity.
Qed.

Lemma extract_keeps_the_three_columns_witness :
  exists iy isem ic,
    nth iy ["COURSE NO"; "Course"; "Semester"; "Year"] "" = "Year"
    /\ nth isem ["COURSE NO"; "Course"; "Semester"; "Year"] "" = "Semester"
    /\ nth ic ["COURSE NO"; "Course"; "Semester"; "Year"] "" = "Course"
    /\ Browser.extract
         (Some [["COURSE NO"; "COURSE NAME"; "SEM"; "ACADEMIC YEAR"];
                ["CS101A"; "CS101"; "1"; "2023-24"]])
       = inr (Browser.mkFrame
                ["Year"; "Semester"; "Course"]
                (map (fun r => [nth iy r ""; nth isem r ""; nth ic r ""])
                     [["CS101A"; "CS101"; "1"; "2023-24"]])).
Proof.
  apply (extract_keeps_the_three_columns
           ["COURSE NO"; "COURSE NAME"; "SEM"; "ACADEMIC YEAR"]
           [["CS101A"; "CS101"; "1"; "2023-24"]]).
  intros name [<-|[<-|[<-|[]]]]; reflexivity.
Defined.

(** ** The query loop *)

Lemma main_continues (q : Program.Query) (rest : list Program.Query)
      (w w' : World) :
  strip (Program.typed q) <> "" ->
  Program.main (q :: rest) w = (w', Val tt) ->
  exists w2, Program.main rest w2 = (w', Val tt).
Proof.
  intros Hname H. rewrite main_query in H by exact Hname.
  unfold bind at 1 in H.
  destruct (Browser.get_professor_courses _ _ _) as [w1 [df|e|]];
    try discriminate.
  destruct (Browser.frame_empty df).
  - unfold bind, print, emit in H. eauto.
  - unfold bind at 1, lift at 1 in H.
    destruct (Program.grades_file q); [discriminate|].
    unfold ret at 1, bind at 1, lift at 1 in H.
    destruct (Program.course_records df); [discriminate|].
    unfold ret at 1, bind, print, emit in H. eauto.
Qed.

(** X14: the query loop returns normally only at a blank name: every
    name before it was not blank, and the last thing printed is
    "No Professor name entered. Exiting."; any other end is an
    exception. *)
Theorem main_returns_only_at_blank_name
        (inputs : list Program.Query) (w w' : World)
        (Hrun : Program.main inputs w = (w', Val tt)) :
  exists before q after,
    inputs = (before ++ q :: after)%list
    /\ strip (Program.typed q) = ""
    /\ Forall (fun p => strip (Program.typed p) <> "") before
    /\ exists out,
         stdout w' = (out ++ [Line "No Professor name entered. Exiting."])%list.
Proof.
  revert w Hrun. induction inputs as [|q rest IH]; intros w Hrun.
  - discriminate.
  - destruct (string_dec (strip (Program.typed q)) "") as [Hblank|Hname].
    + exists [], q, rest. split; [reflexivity|]. split; [exact Hblank|].
      split; [constructor|].
      cbn [Program.main] in Hrun. unfold bind, print, emit in Hrun.
      rewrite Hblank in Hrun. inversion Hrun. simpl. eauto.
    + destruct (main_continues q rest w w' Hname Hrun) as (w2 & Hrest).
      destruct (IH w2 Hrest) as (before & q' & after & -> & Hb & Hall & Hout).
      exists (q :: before), q', after. split; [reflexivity|].
      split; [exact Hb|]. split; [now constructor|exact Hout].
Qed.

Lemma main_returns_only_at_blank_name_witness :
  exists before q after,
    [Program.mkQuery "Rik Dey" (Program.steady_site Program.course_page)
                     (inr Reconcile.cs101_grades);
     Program.mkQuery "  " (Program.steady_site None) (inr [])]
    = (before ++ q :: after)%list
    /\ strip (Program.typed q) = ""
    /\ Forall (fun p => strip (Program.typed p) <> "") before
    /\ exists out,
         stdout (fst (Program.main
                        [Program.mkQuery "Rik Dey"
                           (Program.steady_site Program.course_page)
                           (inr Reconcile.cs101_grades);
                         Program.mkQuery "  " (Program.steady_site None)
                                         (inr [])]
                        Program.fresh))
         = (out ++ [Line "No Professor name entered. Exiting."])%list.
Proof.
  apply (main_returns_only_at_blank_name
           [Program.mkQuery "Rik Dey" (Program.steady_site Program.course_page)
                            (inr Reconcile.cs101_grades);
            Program.mkQuery "  " (Program.steady_site None) (inr [])]
           Program.fresh).
  reflexivity.
Defined.







(** ** The earlier variant *)

(** X17: the pivot that [testing.py] prints has, in every row, exactly
    the grade codes carried by some record that matches a listed course,
    allowed or not, in ascending order; a grade no matched record
    carries is no column at all. *)
Theorem testing_columns_are_the_matched_grades
        (courses : list Reconcile.CourseRecord)
        (grades : list Reconcile.GradeRecord)
        (r : Reconcile.PivotRow)
        (Hr : In r (Testing.report courses grades)) :
  (forall g,
      In g (map fst (snd r)) <->
      exists c x,
        In c courses /\ In x grades
        /\ Reconcile.course_key (Reconcile.normalize_course c)
           = Reconcile.grade_key (Reconcile.normalize_grade x)
        /\ Reconcile.Grade x = g)
  /\ StronglySorted (fun a b => String.compare a b = Lt) (map fst (snd r)).
Proof.
  unfold Testing.report, Reconcile.pivot_table in Hr.
  apply in_map_iff in Hr. destruct Hr as (k & <- & _). cbn [snd].
  rewrite map_map. cbn [fst]. rewrite map_id. split.
  - intro g. rewrite sort_unique_in by exact String.compare_eq_iff.
    rewrite in_map_iff. split.
    + intros ([[k' g'] n] & Hg & Hin). simpl in Hg. subst g'.
      apply merge_graded in Hin.
      destruct Hin as (c & x & Hc & Hx & Hk & _ & -> & _).
      apply in_map_iff in Hc, Hx.
      destruct Hc as (c0 & <- & Hc0). destruct Hx as (x0 & <- & Hx0).
      exists c0, x0. auto.
    + intros (c & x & Hc & Hx & Hk & <-).
      exists (Reconcile.course_key (Reconcile.normalize_course c),
              Reconcile.Grade x, Reconcile.Count x).
      split; [reflexivity|]. apply merge_graded.
      exists (Reconcile.normalize_course c), (Reconcile.normalize_grade x).
      repeat split; auto using in_map.
  - apply sort_unique_sorted.
    + exact String.compare_eq_iff.
    + exact String.compare_antisym.
    + exact string_compare_trans.
Qed.

Lemma testing_columns_are_the_matched_grades_witness :
  StronglySorted (fun a b => String.compare a b = Lt) ["A"; "B"; "S"].
Proof.
  refine (proj2 (testing_columns_are_the_matched_grades
                   [Reconcile.cs101] Reconcile.cs101_grades
                   (("2023-24", 1, "CS101"), [("A", 10); ("B", 5); ("S", 2)])
                   _)).
  left; reflexivity.
Defined.
